(** * Order service: a model of [microservices/order-service/main.py]

    The handlers of the FastAPI application are embedded as functions over
    the module-level list [orders].  A handler receives the list, may
    replace it, and either returns a value or raises a Python exception.
    The two sources of non-determinism of the module, [uuid.uuid4()] and
    [datetime.now()], are read by the caller and passed in as arguments.

    The model stops at the value a handler returns or the exception it
    raises: request parsing and response rendering belong to the
    framework. *)

From Stdlib Require Import ZArith.
From Stdlib Require Import Floats.PrimFloat Floats.SpecFloat Floats.FloatOps.
From stdpp Require Import base option list strings relations.

Set Default Proof Using "Type".
Local Set Warnings "-inexact-float".
Local Open Scope Z_scope.

(** ** Data model *)

(** A reading of the clock ([datetime.now()]), as microseconds. *)
Definition datetime : Type := Z.

(** [class OrderItem(BaseModel)]: [quantity] is a Python [int] (unbounded),
    [price] a Python [float] (binary64). *)
Module OrderItem.
Record t : Type := mk {
  product_id : string;
  quantity : Z;
  price : float
}.
End OrderItem.

(** [class OrderCreate(BaseModel)], the body of [POST /api/orders]. *)
Module OrderCreate.
Record t : Type := mk {
  user_id : string;
  items : list OrderItem.t;
  shipping_address : string
}.
End OrderCreate.

(** The dictionaries kept in [orders]; their keys are those of
    [class OrderResponse(BaseModel)].  [status] is a [str] in the source and
    stays a string here. *)
Module Order.
Record t : Type := mk {
  id : string;
  user_id : string;
  items : list OrderItem.t;
  total_amount : float;
  status : string;
  shipping_address : string;
  created_at : datetime;
  updated_at : option datetime
}.

(** [order["status"] = v] *)
Definition set_status (v : string) (o : t) : t :=
  mk (id o) (user_id o) (items o) (total_amount o) v
     (shipping_address o) (created_at o) (updated_at o).

(** [order["updated_at"] = v] *)
Definition set_updated_at (v : option datetime) (o : t) : t :=
  mk (id o) (user_id o) (items o) (total_amount o) (status o)
     (shipping_address o) (created_at o) v.
End Order.

(** The [{"success": True, "data": order}] dictionaries returned by the
    PATCH and DELETE handlers. *)
Record envelope : Type := Envelope {
  success : bool;
  data : Order.t
}.

(** ** Exceptions and handlers *)

(** The exceptions that can arise inside the handlers.  All three are
    subclasses of [Exception]. *)
Inductive exn : Type :=
| HTTPException (status_code : Z) (detail : string)
| OverflowError
| IndexError.

Inductive outcome (A : Type) : Type :=
| Returned (a : A)
| Raised (e : exn).
Arguments Returned {A} a.
Arguments Raised {A} e.

(** A handler runs against the current content of [orders] and leaves a
    new content behind, also when it raises: Python does not roll back. *)
Definition handler (A : Type) : Type :=
  list Order.t → outcome A * list Order.t.

Global Instance handler_ret : MRet handler :=
  λ A a orders, (Returned a, orders).

Global Instance handler_bind : MBind handler :=
  λ A B k m orders,
    match m orders with
    | (Returned a, orders') => k a orders'
    | (Raised e, orders') => (Raised e, orders')
    end.

Definition raise {A : Type} (e : exn) : handler A :=
  λ orders, (Raised e, orders).

(** Reading and replacing the global. *)
Definition read_orders : handler (list Order.t) :=
  λ orders, (Returned orders, orders).

Definition write_orders (orders' : list Order.t) : handler unit :=
  λ _, (Returned tt, orders').

(** A pure computation that may raise, run inside a handler. *)
Definition lift {A : Type} (r : outcome A) : handler A :=
  λ orders, (r, orders).

(** [try: body  except ...: on_exn] *)
Definition try_except {A : Type} (body : handler A) (on_exn : exn → handler A)
  : handler A :=
  λ orders,
    match body orders with
    | (Returned a, orders') => (Returned a, orders')
    | (Raised e, orders') => on_exn e orders'
    end.

Definition internal_server_error : exn :=
  HTTPException 500 "Internal server error".

(** [except Exception as e: raise HTTPException(status_code=500, ...)] *)
Definition except_Exception {A : Type} (e : exn) : handler A :=
  raise internal_server_error.

(** [except HTTPException: raise] followed by the [except Exception] clause. *)
Definition except_HTTPException {A : Type} (e : exn) : handler A :=
  match e with
  | HTTPException _ _ => raise e
  | _ => except_Exception e
  end.

(** ** Arithmetic of [create_order] *)

(** Conversion of a Python [int] to [float]: correctly rounded (to nearest,
    ties to even); an [int] whose rounding is not finite raises
    [OverflowError] ("int too large to convert to float"). *)
Definition float_of_int (n : Z) : outcome float :=
  let x := SF2Prim (binary_normalize prec emax n 0 false) in
  if PrimFloat.is_infinity x then Raised OverflowError else Returned x.

(** [item.price * item.quantity]: [float.__mul__] converts the [int]
    operand first. *)
Definition subtotal (item : OrderItem.t) : outcome float :=
  match float_of_int (OrderItem.quantity item) with
  | Returned q => Returned (PrimFloat.mul (OrderItem.price item) q)
  | Raised e => Raised e
  end.

(** The loop of the built-in [sum] over the generator
    [(item.price * item.quantity for item in items)]: the running total is
    added to each subtotal as the generator yields it, left to right; an
    exception of the generator ends the loop.  Each step is one [float]
    addition; the compensation term that recent interpreters carry along
    the loop is not modelled. *)
Fixpoint sum_from (acc : float) (items : list OrderItem.t) : outcome float :=
  match items with
  | [] => Returned acc
  | item :: rest =>
      match subtotal item with
      | Returned x => sum_from (PrimFloat.add acc x) rest
      | Raised e => Raised e
      end
  end.

(** [sum(...)] starts from the integer [0], which the first addition
    converts to [0.0]. *)
Definition py_sum (items : list OrderItem.t) : outcome float :=
  sum_from 0%float items.

(** ** The store and the handlers *)

(** The module-level [orders] as it is when the module has been imported
    at time [boot]. *)
Definition orders (boot : datetime) : list Order.t :=
  [ Order.mk "1" "1"
      [ OrderItem.mk "prod-1" 2 29.99%float ]
      59.98%float
      "pending"
      "123 Main St, City, Country"
      boot
      None ].

(** [o["id"] == order_id] *)
Definition has_id (order_id : string) (o : Order.t) : Prop :=
  Order.id o = order_id.

Global Instance has_id_dec order_id o : Decision (has_id order_id o).
Proof. unfold has_id. apply _. Defined.

(** [GET /api/orders] *)
Definition get_orders : handler (list Order.t) :=
  try_except read_orders except_Exception.

(** [GET /api/orders/{order_id}].  [next(..., None)] is the first order
    with the id; a stored order is a non-empty dictionary, so [not order]
    holds only for [None]. *)
Definition get_order (order_id : string) : handler Order.t :=
  try_except
    (orders ← read_orders;
     match snd <$> list_find (has_id order_id) orders with
     | None => raise (HTTPException 404 "Order not found")
     | Some order => mret order
     end)
    except_HTTPException.

(** [POST /api/orders] *)
Definition create_order (order_data : OrderCreate.t)
    (uuid4 : string) (now : datetime) : handler Order.t :=
  try_except
    (total_amount ← lift (py_sum (OrderCreate.items order_data));
     let new_order :=
       Order.mk uuid4
         (OrderCreate.user_id order_data)
         (OrderCreate.items order_data)
         total_amount
         "pending"
         (OrderCreate.shipping_address order_data)
         now
         None in
     orders ← read_orders;
     write_orders (orders ++ [new_order]);;
     mret new_order)
    except_Exception.

Definition valid_statuses : list string :=
  ["pending"; "processing"; "shipped"; "delivered"; "cancelled"].

(** [PATCH /api/orders/{order_id}].  The dictionary found by [next] is the
    element of the list at the index of the first match, and the two
    assignments change it in place. *)
Definition update_order_status (order_id status : string) (now : datetime)
  : handler envelope :=
  try_except
    (orders ← read_orders;
     match list_find (has_id order_id) orders with
     | None => raise (HTTPException 404 "Order not found")
     | Some (i, order) =>
         if decide (status ∈ valid_statuses) then
           let order := Order.set_status status order in
           let order := Order.set_updated_at (Some now) order in
           write_orders (<[i := order]> orders);;
           mret (Envelope true order)
         else raise (HTTPException 400 "Invalid status")
     end)
    except_HTTPException.

(** [GET /api/users/{user_id}/orders] *)
Definition get_user_orders (user_id : string) : handler (list Order.t) :=
  try_except
    (orders ← read_orders;
     mret (filter (λ o, Order.user_id o = user_id) orders))
    except_Exception.

(** [orders.pop(i)]: removes and returns the element at [i]; raises
    [IndexError] out of range. *)
Definition pop (i : nat) : handler Order.t :=
  orders ← read_orders;
  match orders !! i with
  | None => raise IndexError
  | Some o => write_orders (delete i orders);; mret o
  end.

(** [DELETE /api/orders/{order_id}] *)
Definition delete_order (order_id : string) : handler envelope :=
  try_except
    (orders ← read_orders;
     match fst <$> list_find (has_id order_id) orders with
     | None => raise (HTTPException 404 "Order not found")
     | Some order_index =>
         deleted_order ← pop order_index;
         mret (Envelope true deleted_order)
     end)
    except_HTTPException.

(** ** Requests and reachable stores *)

(** The requests that change [orders]. *)
Inductive request : Type :=
| POST_orders (order_data : OrderCreate.t) (uuid4 : string) (now : datetime)
| PATCH_order (order_id status : string) (now : datetime)
| DELETE_order (order_id : string).

(** The content of [orders] after a request has been served. *)
Definition serve (r : request) (s : list Order.t) : list Order.t :=
  match r with
  | POST_orders order_data uuid4 now =>
      snd (create_order order_data uuid4 now s)
  | PATCH_order order_id status now =>
      snd (update_order_status order_id status now s)
  | DELETE_order order_id =>
      snd (delete_order order_id s)
  end.

Definition ids (s : list Order.t) : list string := Order.id <$> s.

(** [uuid.uuid4()] is taken to return an identifier that no stored order
    carries. *)
Definition uuid_fresh (r : request) (s : list Order.t) : Prop :=
  match r with
  | POST_orders _ uuid4 _ => uuid4 ∉ ids s
  | _ => True
  end.

Inductive reachable : list Order.t → Prop :=
| reachable_boot boot : reachable (orders boot)
| reachable_serve r s :
    reachable s → uuid_fresh r s → reachable (serve r s).

(** ** The total, as the specification words it *)

(** An [int] that [float] can hold. *)
Definition converts (n : Z) : Prop := ∃ q, float_of_int n = Returned q.

(** The sum of price × quantity over the items, accumulated in the order
    of the items: nothing for no item, and each further item adds its
    price × quantity to the total of the items before it. *)
Inductive total_in_order : list OrderItem.t → float → Prop :=
| total_empty : total_in_order [] 0%float
| total_next items item total q :
    total_in_order items total →
    float_of_int (OrderItem.quantity item) = Returned q →
    total_in_order (items ++ [item])
      (PrimFloat.add total (PrimFloat.mul (OrderItem.price item) q)).

(** A request that names [order_id] in its path. *)
Definition targets (order_id : string) (r : request) : Prop :=
  match r with
  | POST_orders _ _ _ => False
  | PATCH_order order_id' _ _ => order_id' = order_id
  | DELETE_order order_id' => order_id' = order_id
  end.

(** The content of [orders] after a sequence of requests, served in turn. *)
Definition serve_all (rs : list request) (s : list Order.t) : list Order.t :=
  foldl (λ s r, serve r s) s rs.

(** ** Sample data *)

Definition sample_order_data : OrderCreate.t :=
  OrderCreate.mk "7"
    [ OrderItem.mk "prod-1" 2 29.99%float; OrderItem.mk "prod-2" 3 0.5%float ]
    "1 Side St".

(** A quantity that type validation accepts and [float] cannot hold. *)
Definition huge_order_data : OrderCreate.t :=
  OrderCreate.mk "7" [ OrderItem.mk "prod-1" (10 ^ 400) 1%float ] "1 Side St".

Definition sample_store : list Order.t :=
  serve (PATCH_order "1" "shipped" 300)
    (serve (POST_orders sample_order_data "uuid-a" 200) (orders 100)).

(** The scenario of the specification: one item, two units at 29.99. *)
Definition scenario_order_data : OrderCreate.t :=
  OrderCreate.mk "1" [ OrderItem.mk "prod-1" 2 29.99%float ] "1 Side St".

(** The same three items in two orders. *)
Definition large_item_first : list OrderItem.t :=
  [ OrderItem.mk "a" 1 1e16%float; OrderItem.mk "b" 1 1%float;
    OrderItem.mk "c" 1 1%float ].

Definition large_item_last : list OrderItem.t :=
  [ OrderItem.mk "b" 1 1%float; OrderItem.mk "c" 1 1%float;
    OrderItem.mk "a" 1 1e16%float ].

Definition sample_requests : list request :=
  [ PATCH_order "1" "shipped" 300;
    POST_orders scenario_order_data "uuid-b" 400;
    DELETE_order "1" ].

(** A request that stores a new order under [order_id]. *)
Definition creates (order_id : string) (r : request) : Prop :=
  match r with
  | POST_orders _ uuid4 _ => uuid4 = order_id
  | _ => False
  end.

(** The keys of a stored order that only [create_order] assigns. *)
Definition immutable_part (o : Order.t)
  : string * string * list OrderItem.t * float * string * datetime :=
  (Order.id o, Order.user_id o, Order.items o, Order.total_amount o,
   Order.shipping_address o, Order.created_at o).

(** * Properties *)

(** ** Running the handlers *)

Ltac run :=
  unfold try_except, except_HTTPException, except_Exception, mbind,
    handler_bind, mret, handler_ret, read_orders, write_orders, raise, lift;
  simpl.

Lemma get_orders_run s : get_orders s = (Returned s, s).
Proof. reflexivity. Qed.

Lemma get_order_run order_id s :
  get_order order_id s =
  match list_find (has_id order_id) s with
  | Some (_, order) => (Returned order, s)
  | None => (Raised (HTTPException 404 "Order not found"), s)
  end.
Proof.
  unfold get_order. run.
  by destruct (list_find (has_id order_id) s) as [[i o]|].
Qed.

Lemma get_user_orders_run user_id s :
  get_user_orders user_id s =
  (Returned (filter (λ o, Order.user_id o = user_id) s), s).
Proof. reflexivity. Qed.

Lemma create_order_run order_data uuid4 now s :
  create_order order_data uuid4 now s =
  match py_sum (OrderCreate.items order_data) with
  | Returned total_amount =>
      let new_order :=
        Order.mk uuid4 (OrderCreate.user_id order_data)
          (OrderCreate.items order_data) total_amount "pending"
          (OrderCreate.shipping_address order_data) now None in
      (Returned new_order, s ++ [new_order])
  | Raised _ => (Raised internal_server_error, s)
  end.
Proof.
  unfold create_order. run.
  by destruct (py_sum (OrderCreate.items order_data)).
Qed.

Lemma update_order_status_run order_id status now s :
  update_order_status order_id status now s =
  match list_find (has_id order_id) s with
  | None => (Raised (HTTPException 404 "Order not found"), s)
  | Some (i, order) =>
      if decide (status ∈ valid_statuses) then
        let order' :=
          Order.set_updated_at (Some now) (Order.set_status status order) in
        (Returned (Envelope true order'), <[i := order']> s)
      else (Raised (HTTPException 400 "Invalid status"), s)
  end.
Proof.
  unfold update_order_status. run.
  destruct (list_find (has_id order_id) s) as [[i o]|]; [|done].
  by destruct (decide (status ∈ valid_statuses)).
Qed.

(** The index handed to [pop] comes from the list itself, so [pop] never
    raises [IndexError] and the handler never answers 500. *)
Lemma delete_order_run order_id s :
  delete_order order_id s =
  match list_find (has_id order_id) s with
  | None => (Raised (HTTPException 404 "Order not found"), s)
  | Some (i, order) => (Returned (Envelope true order), delete i s)
  end.
Proof.
  unfold delete_order, pop. run.
  destruct (list_find (has_id order_id) s) as [[i o]|] eqn:Hfind; [|done].
  apply list_find_Some in Hfind as (Hi & _ & _). simpl. by rewrite Hi.
Qed.

(** ** Looking an identifier up *)

Lemma list_find_id_None order_id s :
  list_find (has_id order_id) s = None ↔ order_id ∉ ids s.
Proof.
  rewrite list_find_None, Forall_forall. unfold ids, has_id. split.
  - intros Hs (o & -> & Ho)%list_elem_of_fmap. by apply (Hs o).
  - intros Hs o Ho <-. apply Hs. by apply list_elem_of_fmap_2.
Qed.

Lemma list_find_id_Some order_id s i o :
  list_find (has_id order_id) s = Some (i, o) →
  s !! i = Some o ∧ Order.id o = order_id ∧ ids s !! i = Some order_id.
Proof.
  intros (Hi & Hid & _)%list_find_Some. split_and!; [done..|].
  unfold ids. rewrite list_lookup_fmap, Hi. simpl. by rewrite Hid.
Qed.

Lemma list_find_id_is_Some order_id s :
  order_id ∈ ids s → ∃ i o, list_find (has_id order_id) s = Some (i, o).
Proof.
  intros Hin. destruct (list_find (has_id order_id) s) as [[i o]|] eqn:Hfind.
  - by exists i, o.
  - by apply list_find_id_None in Hfind.
Qed.

Lemma NoDup_delete_lookup {A} (l : list A) i x :
  NoDup l → l !! i = Some x → x ∉ delete i l.
Proof.
  intros Hnd Hi (j & Hj)%list_elem_of_lookup_1.
  destruct (decide (j < i)%nat) as [Hlt|Hge].
  - rewrite list_lookup_delete_lt in Hj by done.
    pose proof (NoDup_lookup _ _ _ _ Hnd Hi Hj). lia.
  - rewrite list_lookup_delete_ge in Hj by lia.
    pose proof (NoDup_lookup _ _ _ _ Hnd Hi Hj). lia.
Qed.

(** ** The total *)

Lemma sum_from_app acc items1 items2 :
  sum_from acc (items1 ++ items2) =
  match sum_from acc items1 with
  | Returned acc' => sum_from acc' items2
  | Raised e => Raised e
  end.
Proof.
  revert acc. induction items1 as [|item items1 IH]; intros acc; simpl; [done|].
  by destruct (subtotal item).
Qed.

Lemma subtotal_Returned item x :
  subtotal item = Returned x ↔
  ∃ q, float_of_int (OrderItem.quantity item) = Returned q ∧
       x = PrimFloat.mul (OrderItem.price item) q.
Proof.
  unfold subtotal. destruct (float_of_int _) as [q|e]; split.
  - intros [= <-]. by exists q.
  - by intros (q' & [= <-] & ->).
  - done.
  - by intros (q' & ? & _).
Qed.

Lemma sum_from_total_in_order items total :
  sum_from 0%float items = Returned total ↔ total_in_order items total.
Proof.
  split.
  - revert total. induction items as [|item items IH] using rev_ind;
      intros total; simpl.
    + intros [= <-]. constructor.
    + rewrite sum_from_app.
      destruct (sum_from 0%float items) as [acc|] eqn:Hacc; [|done]. simpl.
      destruct (subtotal item) as [x|] eqn:Hx; [|done].
      intros [= <-]. apply subtotal_Returned in Hx as (q & Hq & ->).
      by apply total_next; [apply IH|].
  - induction 1 as [|items item total q _ IH Hq]; [done|].
    rewrite sum_from_app, IH. simpl. unfold subtotal. by rewrite Hq.
Qed.

Lemma sum_from_converts acc items :
  Forall (λ item, converts (OrderItem.quantity item)) items →
  ∃ total, sum_from acc items = Returned total.
Proof.
  intros Hitems. revert acc.
  induction Hitems as [|item items [q Hq] _ IH]; intros acc; simpl.
  - by exists acc.
  - unfold subtotal. rewrite Hq. apply IH.
Qed.

Lemma sum_from_Returned_converts acc items total :
  sum_from acc items = Returned total →
  Forall (λ item, converts (OrderItem.quantity item)) items.
Proof.
  revert acc. induction items as [|item items IH]; intros acc; simpl; [done|].
  destruct (subtotal item) as [x|] eqn:Hx; [|done].
  apply subtotal_Returned in Hx as (q & Hq & _).
  intros Hrest. constructor; [by exists q | by eapply IH].
Qed.

Lemma py_sum_Returned_iff items :
  (∃ total, py_sum items = Returned total) ↔
  Forall (λ item, converts (OrderItem.quantity item)) items.
Proof.
  split.
  - intros [total Htotal]. by eapply sum_from_Returned_converts.
  - apply sum_from_converts.
Qed.

(** Closed decidable goals, by evaluation. *)
Ltac by_evaluation := apply (bool_decide_unpack _); vm_compute; exact I.

(** ** The seeded store *)

Lemma seeded_total_is_computed boot o :
  o ∈ orders boot →
  py_sum (Order.items o) = Returned (Order.total_amount o).
Proof. intros ->%list_elem_of_singleton. reflexivity. Qed.

(** C9: when the module has been loaded, [orders] is not empty: it holds
    exactly one order, with id "1", user_id "1", the single item
    (prod-1, quantity 2, price 29.99), total_amount 59.98, status "pending"
    and updated_at None; [get_orders] before any creation returns that one
    order. *)
Theorem orders_seeded boot :
  ∃ o,
    orders boot = [o] ∧
    get_orders (orders boot) = (Returned [o], orders boot) ∧
    Order.id o = "1" ∧
    Order.user_id o = "1" ∧
    Order.items o = [OrderItem.mk "prod-1" 2 29.99%float] ∧
    Order.total_amount o = 59.98%float ∧
    Order.status o = "pending" ∧
    Order.updated_at o = None.
Proof.
  eexists. split; [reflexivity|].
  rewrite get_orders_run. by split_and!.
Qed.

(** ** Updating a status *)

Lemma valid_statuses_spec status :
  status ∈ valid_statuses ↔
  status = "pending" ∨ status = "processing" ∨ status = "shipped" ∨
  status = "delivered" ∨ status = "cancelled".
Proof.
  unfold valid_statuses. rewrite !elem_of_cons, elem_of_nil. tauto.
Qed.

(** C10: [update_order_status] with an id that no stored order has and a
    status outside the five recognised ones answers 404 "Order not found",
    not 400: the lookup comes before the validation.  [orders] is left as
    it was. *)
Theorem update_order_status_not_found_first order_id status now s :
  order_id ∉ ids s →
  status ∉ valid_statuses →
  update_order_status order_id status now s =
    (Raised (HTTPException 404 "Order not found"), s) ∧
  update_order_status order_id status now s ≠
    (Raised (HTTPException 400 "Invalid status"), s).
Proof.
  intros Habsent%list_find_id_None _.
  rewrite update_order_status_run, Habsent. by split.
Qed.

Lemma update_order_status_not_found_first_witness :
  update_order_status "2" "bogus" 300 (orders 100) =
    (Raised (HTTPException 404 "Order not found"), orders 100).
Proof.
  apply (update_order_status_not_found_first "2" "bogus" 300 (orders 100));
    by_evaluation.
Defined.

(** C2: for an id that a stored order has, [update_order_status] returns
    exactly when the new status is one of pending, processing, shipped,
    delivered, cancelled, whatever the stored order's status is; for any
    other string it raises 400 "Invalid status" and [orders] is left as it
    was. *)
Theorem update_order_status_valid_iff order_id status now s :
  order_id ∈ ids s →
  ((∃ response s', update_order_status order_id status now s =
                     (Returned response, s')) ↔
   status ∈ valid_statuses) ∧
  (status ∉ valid_statuses →
   update_order_status order_id status now s =
     (Raised (HTTPException 400 "Invalid status"), s)).
Proof.
  intros (i & o & Hfind)%list_find_id_is_Some.
  rewrite update_order_status_run, Hfind.
  destruct (decide (status ∈ valid_statuses)) as [Hvalid|Hinvalid].
  - split; [|done]. split; [done|]. intros _. by eexists _, _.
  - split; [|done]. split; [|done]. by intros (? & ? & ?).
Qed.

Lemma update_order_status_valid_iff_witness :
  (∃ response s', update_order_status "1" "delivered" 300 (orders 100) =
                    (Returned response, s')) ∧
  update_order_status "1" "Pending" 300 (orders 100) =
    (Raised (HTTPException 400 "Invalid status"), orders 100).
Proof.
  assert ("1" ∈ ids (orders 100)) as Hin by by_evaluation.
  split.
  - apply (update_order_status_valid_iff "1" "delivered" 300 (orders 100) Hin).
    by_evaluation.
  - apply (update_order_status_valid_iff "1" "Pending" 300 (orders 100) Hin).
    by_evaluation.
Defined.

(** C7: for an id that a stored order has and a valid new status,
    [update_order_status] returns the first order with that id with
    status set to the new status and updated_at set to now; its id,
    user_id, items, total_amount, shipping_address and created_at are
    those it had; the order takes its old place in [orders], and every
    other place of [orders] holds what it held. *)
Theorem update_order_status_frame order_id status now s :
  order_id ∈ ids s →
  status ∈ valid_statuses →
  ∃ i o o',
    list_find (has_id order_id) s = Some (i, o) ∧
    update_order_status order_id status now s =
      (Returned (Envelope true o'), <[i := o']> s) ∧
    Order.status o' = status ∧
    Order.updated_at o' = Some now ∧
    Order.id o' = Order.id o ∧
    Order.user_id o' = Order.user_id o ∧
    Order.items o' = Order.items o ∧
    Order.total_amount o' = Order.total_amount o ∧
    Order.shipping_address o' = Order.shipping_address o ∧
    Order.created_at o' = Order.created_at o ∧
    length (<[i := o']> s) = length s ∧
    <[i := o']> s !! i = Some o' ∧
    ∀ j, j ≠ i → <[i := o']> s !! j = s !! j.
Proof.
  intros (i & o & Hfind)%list_find_id_is_Some Hvalid.
  exists i, o, (Order.set_updated_at (Some now) (Order.set_status status o)).
  rewrite update_order_status_run, Hfind, decide_True by done.
  apply list_find_Some in Hfind as (Hi & _ & _).
  split_and!; try done.
  - apply length_insert.
  - apply list_lookup_insert_eq. by eapply lookup_lt_Some.
  - intros j Hj. by apply list_lookup_insert_ne.
Qed.

Lemma update_order_status_frame_witness :
  ∃ o',
    update_order_status "1" "shipped" 300 (orders 100) =
      (Returned (Envelope true o'), [o']) ∧
    Order.status o' = "shipped" ∧
    Order.updated_at o' = Some 300 ∧
    Order.total_amount o' = 59.98%float ∧
    Order.created_at o' = 100.
Proof.
  destruct (update_order_status_frame "1" "shipped" 300 (orders 100))
    as (i & o & o' & Hfind & Hrun & Hstatus & Hupdated & _ & _ & _ &
        Htotal & _ & Hcreated & _); [by_evaluation..|].
  injection Hfind as <- <-.
  exists o'. by split_and!.
Defined.

(** ** Listing the orders of a user *)

Lemma sublist_filter_largest {A} (P : A → Prop) `{!∀ x, Decision (P x)}
    (l' l : list A) :
  l' `sublist_of` l → Forall P l' → l' `sublist_of` filter P l.
Proof.
  induction 1 as [|x l1 l2 _ IH|x l1 l2 _ IH]; intros HP.
  - constructor.
  - apply Forall_cons in HP as [Hx HP].
    rewrite filter_cons_True by done. apply sublist_skip; auto.
  - rewrite filter_cons. destruct (decide (P x)); [apply sublist_cons|]; auto.
Qed.

(** C6: [get_user_orders] never raises; the list it returns holds exactly
    the stored orders whose user_id is the one asked for, in the order
    [orders] has them (it is a sublist of [orders], and the largest one
    made of that user's orders only); it is the empty list when no stored
    order has that user_id.  [orders] is left as it was. *)
Theorem get_user_orders_exact user_id s :
  ∃ user_orders,
    get_user_orders user_id s = (Returned user_orders, s) ∧
    (∀ o, o ∈ user_orders ↔ o ∈ s ∧ Order.user_id o = user_id) ∧
    user_orders `sublist_of` s ∧
    (∀ l, l `sublist_of` s → Forall (λ o, Order.user_id o = user_id) l →
          l `sublist_of` user_orders) ∧
    (user_id ∉ Order.user_id <$> s → user_orders = []).
Proof.
  exists (filter (λ o, Order.user_id o = user_id) s).
  rewrite get_user_orders_run. split_and!.
  - done.
  - intros o. rewrite list_elem_of_filter. tauto.
  - apply sublist_filter.
  - intros l. apply sublist_filter_largest.
  - intros Hnone.
    destruct (filter _ s) as [|o user_orders] eqn:Hfilter; [done|].
    assert (o ∈ filter (λ o, Order.user_id o = user_id) s) as Ho
      by (rewrite Hfilter; left).
    apply list_elem_of_filter in Ho as [<- Ho].
    destruct Hnone. by apply list_elem_of_fmap_2.
Qed.

Lemma get_user_orders_append user_id s o :
  fst (get_user_orders user_id (s ++ [o])) =
  if decide (Order.user_id o = user_id)
  then Returned (filter (λ o, Order.user_id o = user_id) s ++ [o])
  else fst (get_user_orders user_id s).
Proof.
  rewrite !get_user_orders_run. simpl. rewrite filter_app, filter_cons.
  destruct (decide (Order.user_id o = user_id)); simpl; [done|].
  by rewrite filter_nil, app_nil_r.
Qed.

(** ** Invariants of the reachable stores *)

Lemma serve_status_valid r s :
  Forall (λ o, Order.status o ∈ valid_statuses) s →
  Forall (λ o, Order.status o ∈ valid_statuses) (serve r s).
Proof.
  intros Hs. destruct r as [order_data uuid4 now|order_id status now|order_id];
    simpl.
  - rewrite create_order_run.
    destruct (py_sum (OrderCreate.items order_data)); simpl; [|done].
    apply Forall_app. split; [done|].
    apply Forall_singleton. simpl. by_evaluation.
  - rewrite update_order_status_run.
    destruct (list_find (has_id order_id) s) as [[i o]|]; [|done].
    destruct (decide (status ∈ valid_statuses)); simpl; [|done].
    by apply Forall_insert.
  - rewrite delete_order_run.
    destruct (list_find (has_id order_id) s) as [[i o]|]; simpl; [|done].
    by apply Forall_delete.
Qed.

Lemma sample_store_reachable : reachable sample_store.
Proof.
  unfold sample_store. apply reachable_serve; [|done].
  apply reachable_serve; [apply reachable_boot|].
  simpl. by_evaluation.
Qed.

Lemma serve_all_snoc rs r s :
  serve_all (rs ++ [r]) s = serve r (serve_all rs s).
Proof. unfold serve_all. by rewrite foldl_app. Qed.

(** Every reachable store is the seeded one after some requests. *)
Lemma reachable_serve_all s :
  reachable s → ∃ boot rs, s = serve_all rs (orders boot).
Proof.
  induction 1 as [boot|r s _ (boot & rs & ->) _].
  - by exists boot, [].
  - exists boot, (rs ++ [r]). by rewrite serve_all_snoc.
Qed.

(** C8: in every content of [orders] reached from the seeded one through
    any sequence of [create_order], [update_order_status] and
    [delete_order] calls, the status of every order is one of pending,
    processing, shipped, delivered, cancelled. *)
Theorem orders_status_valid boot rs :
  Forall (λ o, Order.status o ∈ valid_statuses) (serve_all rs (orders boot)).
Proof.
  induction rs as [|r rs IH] using rev_ind.
  - apply Forall_singleton. simpl. by_evaluation.
  - rewrite serve_all_snoc. by apply serve_status_valid.
Qed.

Lemma reachable_status_valid s :
  reachable s → Forall (λ o, Order.status o ∈ valid_statuses) s.
Proof.
  induction 1 as [boot|r s _ IH _].
  - apply Forall_singleton. simpl. by_evaluation.
  - by apply serve_status_valid.
Qed.

Lemma sample_store_statuses :
  Order.status <$> sample_store = ["shipped"; "pending"].
Proof. reflexivity. Qed.

Lemma serve_ids_NoDup r s :
  uuid_fresh r s → NoDup (ids s) → NoDup (ids (serve r s)).
Proof.
  intros Hfresh Hs.
  destruct r as [order_data uuid4 now|order_id status now|order_id]; simpl.
  - rewrite create_order_run.
    destruct (py_sum (OrderCreate.items order_data)); simpl; [|done].
    unfold ids. rewrite fmap_app. apply NoDup_app. split_and!; [done|..].
    + intros k Hk ->%list_elem_of_singleton. by apply Hfresh.
    + apply NoDup_singleton.
  - rewrite update_order_status_run.
    destruct (list_find (has_id order_id) s) as [[i o]|] eqn:Hfind; [|done].
    destruct (decide (status ∈ valid_statuses)); simpl; [|done].
    apply list_find_id_Some in Hfind as (_ & Hid & Hi).
    unfold ids in *. rewrite list_fmap_insert. simpl.
    rewrite list_insert_id; [done|]. by rewrite Hid.
  - rewrite delete_order_run.
    destruct (list_find (has_id order_id) s) as [[i o]|]; simpl; [|done].
    unfold ids. rewrite list_fmap_delete.
    eapply sublist_NoDup; [done|]. apply sublist_delete.
Qed.

Lemma reachable_ids_NoDup s : reachable s → NoDup (ids s).
Proof.
  induction 1 as [boot|r s _ IH Hfresh].
  - apply NoDup_singleton.
  - by apply serve_ids_NoDup.
Qed.

(** ** Deleting *)

(** C4: in a reachable store, [delete_order] raises 404 "Order not found"
    for an id that no stored order has and leaves [orders] as it was;
    for an id that a stored order has, it returns that order, which is
    taken out of [orders]; afterwards no stored order has the id and
    [get_order] with the id raises 404 "Order not found". *)
Theorem delete_order_removes order_id s :
  reachable s →
  (order_id ∉ ids s →
   delete_order order_id s =
     (Raised (HTTPException 404 "Order not found"), s)) ∧
  (order_id ∈ ids s →
   ∃ i o,
     s !! i = Some o ∧ Order.id o = order_id ∧
     delete_order order_id s = (Returned (Envelope true o), delete i s) ∧
     (order_id ∉ ids (delete i s)) ∧
     get_order order_id (delete i s) =
       (Raised (HTTPException 404 "Order not found"), delete i s)).
Proof.
  intros Hunique%reachable_ids_NoDup. rewrite delete_order_run. split.
  - intros Habsent%list_find_id_None. by rewrite Habsent.
  - intros (i & o & Hfind)%list_find_id_is_Some. exists i, o.
    rewrite Hfind. apply list_find_id_Some in Hfind as (Hi & Hid & Hk).
    assert (order_id ∉ ids (delete i s)) as Hgone.
    { unfold ids. rewrite list_fmap_delete. by apply NoDup_delete_lookup. }
    split_and!; [done..|].
    rewrite get_order_run. apply list_find_id_None in Hgone. by rewrite Hgone.
Qed.

Lemma delete_order_removes_witness :
  delete_order "9" sample_store =
    (Raised (HTTPException 404 "Order not found"), sample_store) ∧
  ∃ i o,
    sample_store !! i = Some o ∧ Order.id o = "uuid-a" ∧
    delete_order "uuid-a" sample_store =
      (Returned (Envelope true o), delete i sample_store) ∧
    ("uuid-a" ∉ ids (delete i sample_store)) ∧
    get_order "uuid-a" (delete i sample_store) =
      (Raised (HTTPException 404 "Order not found"), delete i sample_store).
Proof.
  split.
  - apply (delete_order_removes "9" sample_store sample_store_reachable).
    by_evaluation.
  - apply (delete_order_removes "uuid-a" sample_store sample_store_reachable).
    by_evaluation.
Defined.

(** ** Creating *)

Lemma create_order_Returned_iff order_data uuid4 now s :
  (∃ o s', create_order order_data uuid4 now s = (Returned o, s')) ↔
  Forall (λ item, converts (OrderItem.quantity item))
    (OrderCreate.items order_data).
Proof.
  rewrite <- py_sum_Returned_iff, create_order_run.
  destruct (py_sum (OrderCreate.items order_data)) as [total|e]; split.
  - by exists total.
  - intros _. by eexists _, _.
  - by intros (? & ? & ?).
  - by intros [? ?].
Qed.

(** The only other outcome: a quantity that [float] cannot hold makes the
    handler answer 500, and nothing is stored. *)
Lemma create_order_Raised order_data uuid4 now s :
  ¬ Forall (λ item, converts (OrderItem.quantity item))
      (OrderCreate.items order_data) →
  create_order order_data uuid4 now s = (Raised internal_server_error, s).
Proof.
  rewrite <- py_sum_Returned_iff, create_order_run.
  destruct (py_sum (OrderCreate.items order_data)) as [total|e]; [|done].
  intros []. by exists total.
Qed.

Lemma create_order_Returned_inv order_data uuid4 now s o s' :
  create_order order_data uuid4 now s = (Returned o, s') →
  ∃ total_amount,
    py_sum (OrderCreate.items order_data) = Returned total_amount ∧
    o = Order.mk uuid4 (OrderCreate.user_id order_data)
          (OrderCreate.items order_data) total_amount "pending"
          (OrderCreate.shipping_address order_data) now None ∧
    s' = s ++ [o].
Proof.
  rewrite create_order_run.
  destruct (py_sum (OrderCreate.items order_data)) as [total|e]; [|done].
  simpl. intros [= <- <-]. by exists total.
Qed.

(** C3: the order that [create_order] returns has the id generated for
    the call, status "pending", updated_at None, created_at the time of
    the call, and the user_id, items and shipping_address of the request;
    [orders] is what it was with that order appended. *)
Theorem create_order_returned order_data uuid4 now s o s' :
  create_order order_data uuid4 now s = (Returned o, s') →
  Order.id o = uuid4 ∧
  Order.status o = "pending" ∧
  Order.updated_at o = None ∧
  Order.created_at o = now ∧
  Order.user_id o = OrderCreate.user_id order_data ∧
  Order.items o = OrderCreate.items order_data ∧
  Order.shipping_address o = OrderCreate.shipping_address order_data ∧
  s' = s ++ [o].
Proof.
  intros (total & _ & -> & ->)%create_order_Returned_inv. by split_and!.
Qed.

Lemma create_order_returned_witness :
  ∃ o,
    create_order sample_order_data "uuid-a" 200 (orders 100) =
      (Returned o, orders 100 ++ [o]) ∧
    Order.id o = "uuid-a" ∧
    Order.status o = "pending" ∧
    Order.updated_at o = None ∧
    Order.created_at o = 200.
Proof.
  destruct (create_order sample_order_data "uuid-a" 200 (orders 100))
    as [[o|e] s'] eqn:Hrun; [|by vm_compute in Hrun].
  destruct (create_order_returned _ _ _ _ _ _ Hrun)
    as (Hid & Hstatus & Hupdated & Hcreated & _ & _ & _ & ->).
  by exists o.
Defined.

(** C1, as amended: when every quantity of the request is an integer
    that [float] can hold, [create_order] returns an order whose
    total_amount is the sum of price × quantity over the items,
    accumulated in the order of the items. *)
Theorem create_order_total_amount order_data uuid4 now s :
  Forall (λ item, converts (OrderItem.quantity item))
    (OrderCreate.items order_data) →
  ∃ o,
    create_order order_data uuid4 now s = (Returned o, s ++ [o]) ∧
    total_in_order (OrderCreate.items order_data) (Order.total_amount o).
Proof.
  intros [total Htotal]%py_sum_Returned_iff.
  rewrite create_order_run, Htotal. eexists. split; [done|].
  by apply sum_from_total_in_order.
Qed.

Lemma create_order_total_amount_witness :
  ∃ o,
    create_order scenario_order_data "uuid-a" 200 (orders 100) =
      (Returned o, orders 100 ++ [o]) ∧
    total_in_order (OrderCreate.items scenario_order_data)
      (Order.total_amount o) ∧
    Order.total_amount o = 59.98%float.
Proof.
  assert (Forall (λ item, converts (OrderItem.quantity item))
            (OrderCreate.items scenario_order_data)) as Hconverts.
  { apply Forall_singleton. by exists 2%float. }
  destruct (create_order_total_amount scenario_order_data "uuid-a" 200
              (orders 100) Hconverts) as (o & Hrun & Htotal).
  exists o. split_and!; [done..|].
  vm_compute in Hrun. by injection Hrun as <-.
Defined.

(** C1, as stated, fails on a request that passes validation: with a
    quantity of 10^400 no total is computed, the handler answers 500 and
    [orders] is left as it was. *)
Lemma create_order_huge_quantity :
  create_order huge_order_data "uuid-a" 200 (orders 100) =
    (Raised internal_server_error, orders 100).
Proof. by vm_compute. Qed.

(** The order of the items matters to the total. *)
Lemma py_sum_depends_on_order :
  large_item_first ≡ₚ large_item_last ∧
  py_sum large_item_first = Returned 1e16%float ∧
  py_sum large_item_last = Returned 10000000000000002%float.
Proof.
  split; [|by vm_compute].
  unfold large_item_first, large_item_last.
  etrans; [apply Permutation_swap|]. apply Permutation_skip, Permutation_swap.
Qed.

(** ** Reading back *)

(** [next(...)] over a generator with a condition is the head of the
    filtered list. *)
Lemma list_find_head_filter {A} (P : A → Prop) `{!∀ x, Decision (P x)}
    (l : list A) :
  snd <$> list_find P l = head (filter P l).
Proof.
  induction l as [|x l IH]; [done|].
  rewrite filter_cons. simpl. destruct (decide (P x)); [done|].
  rewrite <- IH. by destruct (list_find P l) as [[i y]|].
Qed.

Lemma get_order_run_head order_id s :
  get_order order_id s =
  match head (filter (has_id order_id) s) with
  | Some order => (Returned order, s)
  | None => (Raised (HTTPException 404 "Order not found"), s)
  end.
Proof.
  rewrite get_order_run, <- list_find_head_filter.
  by destruct (list_find (has_id order_id) s) as [[i o]|].
Qed.

Lemma filter_insert_other {A} (P : A → Prop) `{!∀ x, Decision (P x)}
    (l : list A) i x y :
  l !! i = Some x → ¬ P x → ¬ P y →
  filter P (<[i := y]> l) = filter P l.
Proof.
  intros Hi Hx Hy.
  rewrite insert_take_drop by (by eapply lookup_lt_Some).
  trans (filter P (take i l ++ x :: drop (S i) l)).
  - by rewrite !filter_app, !filter_cons_False.
  - by rewrite take_drop_middle.
Qed.

Lemma filter_delete_other {A} (P : A → Prop) `{!∀ x, Decision (P x)}
    (l : list A) i x :
  l !! i = Some x → ¬ P x → filter P (delete i l) = filter P l.
Proof.
  intros Hi Hx. rewrite delete_take_drop.
  trans (filter P (take i l ++ x :: drop (S i) l)).
  - by rewrite !filter_app, filter_cons_False.
  - by rewrite take_drop_middle.
Qed.

(** A request that does not name [order_id] leaves the first order with
    that id where [next] finds it. *)
Lemma serve_keeps_first order_id r s o :
  ¬ targets order_id r →
  head (filter (has_id order_id) s) = Some o →
  head (filter (has_id order_id) (serve r s)) = Some o.
Proof.
  intros Hr Ho.
  destruct r as [order_data uuid4 now|order_id' status now|order_id']; simpl.
  - rewrite create_order_run.
    destruct (py_sum (OrderCreate.items order_data)); simpl; [|done].
    rewrite filter_app.
    by destruct (filter (has_id order_id) s).
  - rewrite update_order_status_run.
    destruct (list_find (has_id order_id') s) as [[i o2]|] eqn:Hfind; [|done].
    destruct (decide (status ∈ valid_statuses)); simpl; [|done].
    apply list_find_id_Some in Hfind as (Hi & Hid & _).
    rewrite (filter_insert_other _ _ _ o2); [done..| |].
    + unfold has_id. simpl in Hr. congruence.
    + unfold has_id. simpl in *. congruence.
  - rewrite delete_order_run.
    destruct (list_find (has_id order_id') s) as [[i o2]|] eqn:Hfind;
      simpl; [|done].
    apply list_find_id_Some in Hfind as (Hi & Hid & _).
    rewrite (filter_delete_other _ _ _ o2); [done..|].
    unfold has_id. simpl in Hr. congruence.
Qed.

Lemma serve_all_keeps_first order_id rs s o :
  Forall (λ r, ¬ targets order_id r) rs →
  head (filter (has_id order_id) s) = Some o →
  head (filter (has_id order_id) (serve_all rs s)) = Some o.
Proof.
  intros Hrs. revert s.
  induction Hrs as [|r rs Hr _ IH]; intros s Ho; [done|].
  simpl. apply IH. by apply serve_keeps_first.
Qed.

(** C5: when [create_order] has returned an order under a fresh id,
    [get_order] with that id returns an order equal to it in every field,
    also after any requests served in between that do not name the id
    (other creations, and updates and deletions of other orders). *)
Theorem get_order_after_create order_data uuid4 now s o s' rs :
  uuid4 ∉ ids s →
  create_order order_data uuid4 now s = (Returned o, s') →
  Forall (λ r, ¬ targets (Order.id o) r) rs →
  get_order (Order.id o) (serve_all rs s') = (Returned o, serve_all rs s').
Proof.
  intros Hfresh (total & _ & Ho & ->)%create_order_Returned_inv Hrs.
  assert (Order.id o = uuid4) as Hid by by rewrite Ho.
  rewrite get_order_run_head.
  rewrite (serve_all_keeps_first _ _ _ o); [done..|].
  rewrite filter_app, filter_cons_True, Hid by done.
  apply list_find_id_None in Hfresh.
  pose proof (list_find_head_filter (has_id uuid4) s) as Hhead.
  rewrite Hfresh in Hhead. simpl in Hhead.
  by destruct (filter (has_id uuid4) s).
Qed.

Lemma get_order_after_create_witness :
  ∃ o s',
    create_order sample_order_data "uuid-a" 200 (orders 100) =
      (Returned o, s') ∧
    get_order "uuid-a" s' = (Returned o, s') ∧
    get_order "uuid-a" (serve_all sample_requests s') =
      (Returned o, serve_all sample_requests s') ∧
    length (serve_all sample_requests s') = 2%nat.
Proof.
  destruct (create_order sample_order_data "uuid-a" 200 (orders 100))
    as [[o|e] s'] eqn:Hrun; [|by vm_compute in Hrun].
  assert ("uuid-a" ∉ ids (orders 100)) as Hfresh by by_evaluation.
  assert (Order.id o = "uuid-a") as Hid
    by (by vm_compute in Hrun; injection Hrun as <-).
  exists o, s'. rewrite <- Hid. split_and!.
  - done.
  - apply (get_order_after_create _ _ _ _ _ _ [] Hfresh Hrun). constructor.
  - apply (get_order_after_create _ _ _ _ _ _ sample_requests Hfresh Hrun).
    rewrite Hid. unfold sample_requests.
    repeat (apply Forall_cons_2; [simpl; first [discriminate | tauto]|]).
    apply Forall_nil_2.
  - vm_compute in Hrun. by injection Hrun as <- <-.
Defined.

(** ** Scenarios *)

(** Where [int] stops converting: ties go to even, and the first integer
    that rounds to 2^1024 raises. *)
Lemma float_of_int_range :
  float_of_int (2 ^ 53 + 1) = Returned 9007199254740992%float ∧
  float_of_int (2 ^ 1024 - 2 ^ 970 - 1) =
    Returned 0x1.fffffffffffffp+1023%float ∧
  float_of_int (2 ^ 1024 - 2 ^ 970) = Raised OverflowError ∧
  float_of_int (- 10 ^ 400) = Raised OverflowError.
Proof. by vm_compute. Qed.

(** A user without orders gets the empty list. *)
Lemma get_user_orders_no_match :
  get_user_orders "nobody" sample_store = (Returned [], sample_store).
Proof. by vm_compute. Qed.

(** Orders of one user come back in the order they were stored. *)
Lemma get_user_orders_in_insertion_order :
  let s := serve_all
             [ POST_orders scenario_order_data "uuid-b" 400;
               POST_orders sample_order_data "uuid-c" 500;
               POST_orders scenario_order_data "uuid-d" 600 ]
             (orders 100) in
  (Order.id <$> s) = ["1"; "uuid-b"; "uuid-c"; "uuid-d"] ∧
  ∃ user_orders,
    get_user_orders "1" s = (Returned user_orders, s) ∧
    (Order.id <$> user_orders) = ["1"; "uuid-b"; "uuid-d"].
Proof. split; [by vm_compute|]. eexists. split; by vm_compute. Qed.

(** A second [PATCH] may move an order out of "delivered" or "cancelled":
    no status is final. *)
Lemma update_order_status_any_transition :
  let s := serve (PATCH_order "1" "cancelled" 300) (orders 100) in
  (Order.status <$> s) = ["cancelled"] ∧
  (Order.status <$> serve (PATCH_order "1" "pending" 400) s) = ["pending"] ∧
  (Order.updated_at <$> serve (PATCH_order "1" "pending" 400) s) = [Some 400].
Proof. by vm_compute. Qed.

(** * Further properties of the handlers *)

(** ** The first order with an id *)

(** What [next] finds splits the list: the orders before it do not have
    the id. *)
Lemma list_find_id_split order_id s i o :
  list_find (has_id order_id) s = Some (i, o) →
  s = take i s ++ o :: drop (S i) s ∧
  (order_id ∉ ids (take i s)) ∧
  length (take i s) = i ∧
  Order.id o = order_id.
Proof.
  intros (Hi & Hid & Hfirst)%list_find_Some. split_and!.
  - by rewrite take_drop_middle.
  - intros (o' & -> & (j & Hj)%list_elem_of_lookup_1)%list_elem_of_fmap.
    apply lookup_take_Some in Hj as [Hj Hlt]. by eapply Hfirst.
  - apply length_take_le. apply lookup_lt_Some in Hi. lia.
  - done.
Qed.

Lemma list_find_id_app order_id before o after :
  order_id ∉ ids before → Order.id o = order_id →
  list_find (has_id order_id) (before ++ o :: after) =
    Some (length before, o).
Proof.
  intros Hbefore%list_find_id_None Hid.
  rewrite list_find_app_r by done. simpl.
  by rewrite decide_True by done.
Qed.

(** X1: [get_order] answers 404 "Order not found" when no stored order
    has the id; otherwise it returns the earliest stored order with the
    id.  In both cases [orders] is left as it was, and the handler never
    answers 500. *)
Theorem get_order_first_match order_id s :
  ((order_id ∉ ids s) ∧
   get_order order_id s =
     (Raised (HTTPException 404 "Order not found"), s)) ∨
  (∃ before o after,
     s = before ++ o :: after ∧
     (order_id ∉ ids before) ∧
     Order.id o = order_id ∧
     get_order order_id s = (Returned o, s)).
Proof.
  rewrite get_order_run.
  destruct (list_find (has_id order_id) s) as [[i o]|] eqn:Hfind.
  - right. apply list_find_id_split in Hfind as (Hs & Hbefore & _ & Hid).
    by exists (take i s), o, (drop (S i) s).
  - left. by apply list_find_id_None in Hfind.
Qed.

(** X2: [delete_order] answers 404 "Order not found" and leaves [orders]
    as it was when no stored order has the id; otherwise it cuts the
    earliest stored order with the id out of [orders], keeping all other
    orders in place and in order, and returns it.  It never answers 500:
    the index given to [pop] is always in range. *)
Theorem delete_order_cuts_first_match order_id s :
  ((order_id ∉ ids s) ∧
   delete_order order_id s =
     (Raised (HTTPException 404 "Order not found"), s)) ∨
  (∃ before o after,
     s = before ++ o :: after ∧
     (order_id ∉ ids before) ∧
     Order.id o = order_id ∧
     delete_order order_id s =
       (Returned (Envelope true o), before ++ after)).
Proof.
  rewrite delete_order_run.
  destruct (list_find (has_id order_id) s) as [[i o]|] eqn:Hfind.
  - right. apply list_find_id_split in Hfind as (Hs & Hbefore & _ & Hid).
    exists (take i s), o, (drop (S i) s). split_and!; [done..|].
    by rewrite delete_take_drop.
  - left. by apply list_find_id_None in Hfind.
Qed.

(** X3: [create_order] raises exactly when some quantity of the request
    is an integer that [float] cannot hold; what it raises is then 500
    "Internal server error", and [orders] is left as it was. *)
Theorem create_order_raises_iff order_data uuid4 now s :
  ((∃ e s', create_order order_data uuid4 now s = (Raised e, s')) ↔
   ¬ Forall (λ item, converts (OrderItem.quantity item))
       (OrderCreate.items order_data)) ∧
  (∀ e s', create_order order_data uuid4 now s = (Raised e, s') →
           e = internal_server_error ∧ s' = s).
Proof.
  rewrite <- py_sum_Returned_iff, create_order_run.
  destruct (py_sum (OrderCreate.items order_data)) as [total|e0]; simpl.
  - split; [|done]. split; [by intros (? & ? & ?)|].
    intros []. by exists total.
  - split.
    + split; [by intros _ [? ?]|]. intros _. by eexists _, _.
    + by intros e s' [= <- <-].
Qed.

Lemma list_find_id_insert order_id s i o o' :
  list_find (has_id order_id) s = Some (i, o) →
  Order.id o' = order_id →
  list_find (has_id order_id) (<[i := o']> s) = Some (i, o').
Proof.
  intros Hfind Hid.
  pose proof (list_find_id_split _ _ _ _ Hfind) as (_ & Hbefore & Hlen & _).
  apply list_find_Some in Hfind as (Hi & _ & _).
  rewrite insert_take_drop by (by eapply lookup_lt_Some).
  rewrite list_find_id_app by done. by rewrite Hlen.
Qed.

(** ** Round trips *)

(** X4: deleting the id under which an order has just been created gives
    back the created order and puts [orders] back to what it was before
    the creation, provided the id was not in use. *)
Theorem delete_order_undoes_create order_data uuid4 now s :
  uuid4 ∉ ids s →
  serve (DELETE_order uuid4)
    (serve (POST_orders order_data uuid4 now) s) = s ∧
  ∀ o s',
    create_order order_data uuid4 now s = (Returned o, s') →
    delete_order uuid4 s' = (Returned (Envelope true o), s).
Proof.
  intros Hfresh. simpl. rewrite create_order_run.
  destruct (py_sum (OrderCreate.items order_data)) as [total|e]; simpl.
  - set (o := Order.mk _ _ _ _ _ _ _ _).
    assert (delete_order uuid4 (s ++ [o]) = (Returned (Envelope true o), s))
      as Hdelete.
    { rewrite delete_order_run, list_find_id_app by done.
      by rewrite delete_middle, app_nil_r. }
    split; [by rewrite Hdelete|]. by intros o' s' [= <- <-].
  - split; [|done]. rewrite delete_order_run.
    apply list_find_id_None in Hfresh. by rewrite Hfresh.
Qed.

Lemma delete_order_undoes_create_witness :
  ∃ o s',
    create_order sample_order_data "uuid-a" 200 (orders 100) =
      (Returned o, s') ∧
    length s' = 2%nat ∧
    delete_order "uuid-a" s' = (Returned (Envelope true o), orders 100).
Proof.
  assert ("uuid-a" ∉ ids (orders 100)) as Hfresh by by_evaluation.
  destruct (create_order sample_order_data "uuid-a" 200 (orders 100))
    as [[o|e] s'] eqn:Hrun; [|by vm_compute in Hrun].
  exists o, s'. split_and!.
  - done.
  - vm_compute in Hrun. by injection Hrun as <- <-.
  - by apply (delete_order_undoes_create sample_order_data "uuid-a" 200
                (orders 100) Hfresh).
Defined.

(** X5: after [update_order_status] has returned, [get_order] with the
    same id returns the very order the update returned, with the new
    status and updated_at set to the time of the update. *)
Theorem get_order_after_update order_id status now s :
  order_id ∈ ids s →
  status ∈ valid_statuses →
  ∃ o' s',
    update_order_status order_id status now s =
      (Returned (Envelope true o'), s') ∧
    get_order order_id s' = (Returned o', s') ∧
    Order.status o' = status ∧
    Order.updated_at o' = Some now.
Proof.
  intros (i & o & Hfind)%list_find_id_is_Some Hvalid.
  rewrite update_order_status_run, Hfind, decide_True by done.
  eexists _, _. split; [done|].
  rewrite get_order_run.
  rewrite (list_find_id_insert _ _ _ o); [done..|].
  by apply list_find_id_Some in Hfind as (_ & Hid & _).
Qed.

Lemma get_order_after_update_witness :
  ∃ o' s',
    update_order_status "uuid-a" "delivered" 700 sample_store =
      (Returned (Envelope true o'), s') ∧
    get_order "uuid-a" s' = (Returned o', s') ∧
    Order.status o' = "delivered" ∧
    Order.updated_at o' = Some 700.
Proof.
  apply (get_order_after_update "uuid-a" "delivered" 700 sample_store);
    by_evaluation.
Defined.

(** ** Requests in sequence *)

(** X6: of two status updates of the same id, the later one wins: when
    its status is valid, [orders] ends up as if the earlier update had
    never been made. *)
Theorem update_order_status_last_wins order_id status1 now1 status2 now2 s :
  status2 ∈ valid_statuses →
  serve (PATCH_order order_id status2 now2)
    (serve (PATCH_order order_id status1 now1) s) =
  serve (PATCH_order order_id status2 now2) s.
Proof.
  intros Hvalid. simpl.
  rewrite (update_order_status_run order_id status1).
  destruct (list_find (has_id order_id) s) as [[i o]|] eqn:Hfind; [|done].
  destruct (decide (status1 ∈ valid_statuses)); [|done]. simpl.
  pose proof (list_find_id_Some _ _ _ _ Hfind) as (_ & Hid & _).
  rewrite !update_order_status_run, Hfind.
  rewrite (list_find_id_insert _ _ _ o) by done.
  rewrite !decide_True by done. simpl.
  by rewrite list_insert_insert_eq.
Qed.

Lemma update_order_status_last_wins_witness :
  serve (PATCH_order "1" "cancelled" 500)
    (serve (PATCH_order "1" "delivered" 400) sample_store) =
  serve (PATCH_order "1" "cancelled" 500) sample_store ∧
  Order.status <$> serve (PATCH_order "1" "cancelled" 500) sample_store =
    ["cancelled"; "pending"].
Proof.
  split; [|reflexivity].
  apply (update_order_status_last_wins "1" "delivered" 400 "cancelled" 500
           sample_store).
  by_evaluation.
Defined.

Lemma serve_delete_absent order_id s :
  NoDup (ids s) → order_id ∉ ids (serve (DELETE_order order_id) s).
Proof.
  intros Hunique. simpl. rewrite delete_order_run.
  destruct (list_find (has_id order_id) s) as [[i o]|] eqn:Hfind; simpl.
  - apply list_find_id_Some in Hfind as (_ & _ & Hi).
    unfold ids. rewrite list_fmap_delete. by apply NoDup_delete_lookup.
  - by apply list_find_id_None.
Qed.

(** X7: in a reachable store, once [delete_order] has been called with
    an id, a second [delete_order] and an [update_order_status] with that
    id answer 404 "Order not found" and change nothing. *)
Theorem delete_order_then_not_found order_id status now s :
  reachable s →
  let s' := serve (DELETE_order order_id) s in
  delete_order order_id s' =
    (Raised (HTTPException 404 "Order not found"), s') ∧
  update_order_status order_id status now s' =
    (Raised (HTTPException 404 "Order not found"), s').
Proof.
  intros Hunique%reachable_ids_NoDup s'.
  pose proof (serve_delete_absent order_id s Hunique) as Habsent.
  apply list_find_id_None in Habsent. fold s' in Habsent.
  by rewrite delete_order_run, update_order_status_run, Habsent.
Qed.

Lemma delete_order_then_not_found_witness :
  delete_order "uuid-a" (serve (DELETE_order "uuid-a") sample_store) =
    (Raised (HTTPException 404 "Order not found"),
     serve (DELETE_order "uuid-a") sample_store) ∧
  length (serve (DELETE_order "uuid-a") sample_store) = 1%nat.
Proof.
  split; [|reflexivity].
  apply (delete_order_then_not_found "uuid-a" "shipped" 700 sample_store
           sample_store_reachable).
Defined.

(** ** Requests about other orders *)

Lemma serve_filter_other order_id r s :
  ¬ targets order_id r → ¬ creates order_id r →
  filter (has_id order_id) (serve r s) = filter (has_id order_id) s.
Proof.
  intros Htargets Hcreates.
  destruct r as [order_data uuid4 now|order_id' status now|order_id']; simpl.
  - rewrite create_order_run.
    destruct (py_sum (OrderCreate.items order_data)); simpl; [|done].
    rewrite filter_app, filter_cons_False, filter_nil, app_nil_r; [done|].
    unfold has_id. simpl. by intros ?.
  - rewrite update_order_status_run.
    destruct (list_find (has_id order_id') s) as [[i o]|] eqn:Hfind; [|done].
    destruct (decide (status ∈ valid_statuses)); simpl; [|done].
    apply list_find_id_Some in Hfind as (Hi & Hid & _).
    apply (filter_insert_other _ _ _ o); [done|..];
      unfold has_id; simpl in *; congruence.
  - rewrite delete_order_run.
    destruct (list_find (has_id order_id') s) as [[i o]|] eqn:Hfind;
      simpl; [|done].
    apply list_find_id_Some in Hfind as (Hi & Hid & _).
    apply (filter_delete_other _ _ _ o); [done|].
    unfold has_id. simpl in *. congruence.
Qed.

(** X8: a request that neither names an id in its path nor creates an
    order under it does not change what [get_order] answers for that
    id, found or not found. *)
Theorem get_order_other_request order_id r s :
  ¬ targets order_id r →
  ¬ creates order_id r →
  fst (get_order order_id (serve r s)) = fst (get_order order_id s).
Proof.
  intros Htargets Hcreates.
  rewrite !get_order_run_head, serve_filter_other by done.
  by destruct (head (filter (has_id order_id) s)).
Qed.

Lemma get_order_other_request_witness :
  fst (get_order "1" (serve (DELETE_order "uuid-a") sample_store)) =
    fst (get_order "1" sample_store) ∧
  fst (get_order "9" (serve (PATCH_order "1" "delivered" 700) sample_store)) =
    Raised (HTTPException 404 "Order not found").
Proof.
  split.
  - apply (get_order_other_request "1" (DELETE_order "uuid-a") sample_store);
      simpl; first [discriminate | tauto].
  - rewrite (get_order_other_request "9" (PATCH_order "1" "delivered" 700)
               sample_store); [reflexivity|simpl..];
      first [discriminate | tauto].
Defined.

(** ** Invariants *)

(** X9: in a reachable store no two orders share an id: orders at
    different places of [orders] have different ids. *)
Theorem orders_ids_unique s i j o1 o2 :
  reachable s →
  s !! i = Some o1 → s !! j = Some o2 →
  i ≠ j →
  Order.id o1 ≠ Order.id o2.
Proof.
  intros Hunique%reachable_ids_NoDup Hi Hj Hne Hid. apply Hne.
  apply (NoDup_lookup (ids s) i j (Order.id o1)); [done|..];
    unfold ids; rewrite list_lookup_fmap.
  - by rewrite Hi.
  - rewrite Hj. simpl. by rewrite Hid.
Qed.

Lemma orders_ids_unique_witness :
  ∃ o1 o2,
    sample_store !! 0%nat = Some o1 ∧
    sample_store !! 1%nat = Some o2 ∧
    Order.id o1 ≠ Order.id o2.
Proof.
  eexists _, _. split; [reflexivity|]. split; [reflexivity|].
  apply (orders_ids_unique sample_store 0 1 _ _ sample_store_reachable);
    [reflexivity..|lia].
Defined.

(** X10: in a reachable store every stored order is what [get_order]
    returns for its id. *)
Theorem get_order_stored s o :
  reachable s → o ∈ s → get_order (Order.id o) s = (Returned o, s).
Proof.
  intros Hunique%reachable_ids_NoDup (j & Hj)%list_elem_of_lookup_1.
  rewrite get_order_run.
  destruct (list_find (has_id (Order.id o)) s) as [[i o']|] eqn:Hfind.
  - apply list_find_id_Some in Hfind as (Hi & Hid & Hk).
    assert (ids s !! j = Some (Order.id o)) as Hj'.
    { unfold ids. by rewrite list_lookup_fmap, Hj. }
    pose proof (NoDup_lookup _ _ _ _ Hunique Hk Hj') as ->.
    congruence.
  - apply list_find_id_None in Hfind. destruct Hfind.
    apply list_elem_of_fmap_2. by eapply list_elem_of_lookup_2.
Qed.

Lemma get_order_stored_witness :
  Forall
    (λ o, get_order (Order.id o) sample_store = (Returned o, sample_store))
    sample_store.
Proof.
  apply Forall_forall. intros o Ho.
  apply (get_order_stored sample_store o sample_store_reachable Ho).
Defined.

Lemma serve_Forall (P : Order.t → Prop) r s :
  (∀ order_data uuid4 now total,
     py_sum (OrderCreate.items order_data) = Returned total →
     P (Order.mk uuid4 (OrderCreate.user_id order_data)
          (OrderCreate.items order_data) total "pending"
          (OrderCreate.shipping_address order_data) now None)) →
  (∀ o status now,
     P o → status ∈ valid_statuses →
     P (Order.set_updated_at (Some now) (Order.set_status status o))) →
  Forall P s → Forall P (serve r s).
Proof.
  intros Hcreate Hupdate Hs.
  destruct r as [order_data uuid4 now|order_id status now|order_id]; simpl.
  - rewrite create_order_run.
    destruct (py_sum (OrderCreate.items order_data)) eqn:Htotal;
      simpl; [|done].
    apply Forall_app. split; [done|]. apply Forall_singleton. by apply Hcreate.
  - rewrite update_order_status_run.
    destruct (list_find (has_id order_id) s) as [[i o]|] eqn:Hfind; [|done].
    destruct (decide (status ∈ valid_statuses)); simpl; [|done].
    apply list_find_Some in Hfind as (Hi & _ & _).
    apply Forall_insert; [done|]. apply Hupdate; [|done].
    by eapply Forall_lookup_1.
  - rewrite delete_order_run.
    destruct (list_find (has_id order_id) s) as [[i o]|]; simpl; [|done].
    by apply Forall_delete.
Qed.

(** X11: whatever requests have been served since the module was loaded,
    the total_amount of every stored order is what [sum] gives on the
    items the order holds: the total is computed at creation and never
    touched again, and neither are the items. *)
Theorem orders_total_amount_kept boot rs :
  Forall (λ o, py_sum (Order.items o) = Returned (Order.total_amount o))
    (serve_all rs (orders boot)).
Proof.
  induction rs as [|r rs IH] using rev_ind.
  - by apply Forall_singleton.
  - rewrite serve_all_snoc. apply serve_Forall; [|done..].
    by intros order_data uuid4 now total Htotal.
Qed.

(** X12: whatever requests have been served since the module was loaded,
    an order whose updated_at is None still has status "pending": the
    status changes only together with updated_at. *)
Theorem orders_updated_at_None_pending boot rs :
  Forall (λ o, Order.updated_at o = None → Order.status o = "pending")
    (serve_all rs (orders boot)).
Proof.
  induction rs as [|r rs IH] using rev_ind.
  - by apply Forall_singleton.
  - rewrite serve_all_snoc. apply serve_Forall; [done| |done].
    by intros o status now _ _ [=].
Qed.

(** ** The orders of a user *)

(** X13: after [create_order] has returned an order, the list that
    [get_user_orders] returns for the user of the request is the former
    list with the new order at its end, and the list of every other user
    is what it was. *)
Theorem get_user_orders_after_create order_data uuid4 now s o s' :
  create_order order_data uuid4 now s = (Returned o, s') →
  (∃ user_orders,
     get_user_orders (OrderCreate.user_id order_data) s =
       (Returned user_orders, s) ∧
     get_user_orders (OrderCreate.user_id order_data) s' =
       (Returned (user_orders ++ [o]), s')) ∧
  (∀ user_id,
     user_id ≠ OrderCreate.user_id order_data →
     fst (get_user_orders user_id s') = fst (get_user_orders user_id s)).
Proof.
  intros (total & _ & Ho & ->)%create_order_Returned_inv.
  assert (Order.user_id o = OrderCreate.user_id order_data) as Huser
    by by rewrite Ho.
  split.
  - eexists. rewrite !get_user_orders_run. split; [done|].
    by rewrite filter_app, filter_cons_True.
  - intros user_id Hne. rewrite !get_user_orders_run. simpl.
    rewrite filter_app, filter_cons_False, filter_nil, app_nil_r; [done|].
    congruence.
Qed.

Lemma get_user_orders_after_create_witness :
  ∃ o s',
    create_order sample_order_data "uuid-e" 800 sample_store =
      (Returned o, s') ∧
    Order.id <$> sample_store = ["1"; "uuid-a"] ∧
    (∃ user_orders,
       get_user_orders "7" s' = (Returned user_orders, s') ∧
       Order.id <$> user_orders = ["uuid-a"; "uuid-e"]) ∧
    fst (get_user_orders "1" s') = fst (get_user_orders "1" sample_store).
Proof.
  destruct (create_order sample_order_data "uuid-e" 800 sample_store)
    as [[o|e] s'] eqn:Hrun; [|by vm_compute in Hrun].
  destruct (get_user_orders_after_create _ _ _ _ _ _ Hrun)
    as [(user_orders & Hbefore & Hafter) Hothers].
  exists o, s'. split_and!; [done|reflexivity| |].
  - eexists. split; [exact Hafter|].
    vm_compute in Hbefore, Hrun.
    injection Hbefore as <-. by injection Hrun as <- _.
  - apply Hothers. discriminate.
Defined.

Lemma filter_insert_same {A B} (P : A → Prop) `{!∀ x, Decision (P x)}
    (f : A → B) (l : list A) i x y :
  l !! i = Some x → (P x ↔ P y) → f x = f y →
  f <$> filter P (<[i := y]> l) = f <$> filter P l.
Proof.
  intros Hi HP Hf.
  rewrite insert_take_drop by (by eapply lookup_lt_Some).
  trans (f <$> filter P (take i l ++ x :: drop (S i) l)).
  - rewrite !filter_app, !filter_cons, !fmap_app.
    destruct (decide (P x)), (decide (P y)); try tauto.
    by rewrite !fmap_cons, Hf.
  - by rewrite take_drop_middle.
Qed.

(** X14: [update_order_status], whatever it answers, leaves the number
    of stored orders and the id, user_id, items, total_amount,
    shipping_address and created_at of each of them as they were; so for
    every user [get_user_orders] lists the same ids in the same order
    before and after. *)
Theorem update_order_status_keeps_immutable order_id status now s :
  let s' := snd (update_order_status order_id status now s) in
  immutable_part <$> s' = immutable_part <$> s ∧
  ∀ user_id user_orders user_orders',
    get_user_orders user_id s = (Returned user_orders, s) →
    get_user_orders user_id s' = (Returned user_orders', s') →
    Order.id <$> user_orders' = Order.id <$> user_orders.
Proof.
  simpl. rewrite update_order_status_run.
  destruct (list_find (has_id order_id) s) as [[i o]|] eqn:Hfind; simpl.
  - destruct (decide (status ∈ valid_statuses)); simpl.
    + apply list_find_Some in Hfind as (Hi & _ & _). split.
      * rewrite list_fmap_insert. apply list_insert_id.
        by rewrite list_lookup_fmap, Hi.
      * intros user_id l l'. rewrite !get_user_orders_run.
        intros [= <-] [= <-].
        by apply (filter_insert_same _ _ _ _ o).
    + split; [done|]. intros user_id l l' Hl. rewrite Hl. by intros [= <-].
  - split; [done|]. intros user_id l l' Hl. rewrite Hl. by intros [= <-].
Qed.

Lemma delete_order_Returned_inv order_id s response s' :
  delete_order order_id s = (Returned response, s') →
  ∃ before o after,
    response = Envelope true o ∧
    s = before ++ o :: after ∧
    s' = before ++ after ∧
    (order_id ∉ ids before) ∧
    Order.id o = order_id.
Proof.
  rewrite delete_order_run.
  destruct (list_find (has_id order_id) s) as [[i o]|] eqn:Hfind; [|done].
  intros [= <- <-].
  apply list_find_id_split in Hfind as (Hs & Hbefore & _ & Hid).
  exists (take i s), o, (drop (S i) s). by rewrite delete_take_drop.
Qed.

(** X15: after [delete_order] has returned an order, the list that
    [get_user_orders] returns for the user of that order is the former
    list without that order, the others keeping their places, and the
    list of every other user is what it was. *)
Theorem get_user_orders_after_delete order_id s response s' :
  delete_order order_id s = (Returned response, s') →
  (∃ l1 l2,
     get_user_orders (Order.user_id (data response)) s =
       (Returned (l1 ++ data response :: l2), s) ∧
     get_user_orders (Order.user_id (data response)) s' =
       (Returned (l1 ++ l2), s')) ∧
  (∀ user_id,
     user_id ≠ Order.user_id (data response) →
     fst (get_user_orders user_id s') = fst (get_user_orders user_id s)).
Proof.
  intros (before & o & after & -> & -> & -> & _)%delete_order_Returned_inv.
  cbn [data]. split.
  - exists (filter (λ o', Order.user_id o' = Order.user_id o) before),
      (filter (λ o', Order.user_id o' = Order.user_id o) after).
    rewrite !get_user_orders_run. split.
    + by rewrite filter_app, filter_cons_True.
    + by rewrite filter_app.
  - intros user_id Hne. rewrite !get_user_orders_run. simpl.
    rewrite !filter_app, filter_cons_False; [done|]. congruence.
Qed.

Lemma get_user_orders_after_delete_witness :
  ∃ response s',
    delete_order "uuid-a" sample_store = (Returned response, s') ∧
    fst (get_user_orders "7" sample_store) = Returned [data response] ∧
    get_user_orders "7" s' = (Returned [], s') ∧
    fst (get_user_orders "1" s') = fst (get_user_orders "1" sample_store).
Proof.
  destruct (delete_order "uuid-a" sample_store)
    as [[response|e] s'] eqn:Hrun; [|by vm_compute in Hrun].
  destruct (get_user_orders_after_delete _ _ _ _ Hrun) as [_ Hothers].
  exists response, s'. split_and!.
  - done.
  - vm_compute in Hrun. by injection Hrun as <- _.
  - vm_compute in Hrun. by injection Hrun as _ <-.
  - apply Hothers. vm_compute in Hrun. by injection Hrun as <- _.
Defined.
